(** * Layered configuration resolution of flytekit/configuration/file.py

    A shallow embedding of [LegacyConfigEntry], [YamlConfigEntry],
    [bool_transformer], [ConfigEntry], [ConfigFile] and [get_config_file].
    Python values are the inductive [pyval]; raising an exception is the
    [Exc] branch of the result type [res]. Python strings are modelled as
    Rocq ASCII strings, and [str.lower] / [str.upper] as their ASCII case
    mappings. *)

From Stdlib Require Import String Ascii List ZArith Bool Lia.
Import ListNotations.
Open Scope string_scope.
Set Warnings "-register-all".

(** ** Python values and exceptions *)

(** Values a setting can take: what [os.environ], [configparser] and
    [yaml.safe_load] produce. A YAML mapping is an association list from its
    string keys (the code only ever subscripts it with a [str]). *)
Inductive pyval : Type :=
| VNone
| VStr (s : string)
| VBool (b : bool)
| VInt (z : Z)
| VList (l : list pyval)
| VDict (m : list (string * pyval)).

(** Python truthiness ([if v:]). *)
Definition truthy (v : pyval) : bool :=
  match v with
  | VNone => false
  | VStr s => negb (String.eqb s "")
  | VBool b => b
  | VInt z => negb (Z.eqb z 0)
  | VList l => match l with [] => false | _ => true end
  | VDict m => match m with [] => false | _ => true end
  end.

(** The exceptions the code raises or lets through. [NoSectionError],
    [NoOptionError] and [ParsingError] are subclasses of [configparser.Error];
    [SystemExit] and [KeyboardInterrupt] derive from [BaseException] only, so
    [except Exception] does not catch them. *)
Inductive exn : Type :=
| KeyError
| TypeError
| ValueError
| AttributeError
| NoSectionError
| NoOptionError
| ParsingError
| FileNotFoundError
| YAMLError
| NotImplementedError
| FlyteAssertion
| OSError
| SystemExit
| KeyboardInterrupt.

(** Subclasses of [Exception], what [except Exception] catches. *)
Definition is_exception (e : exn) : bool :=
  match e with
  | SystemExit | KeyboardInterrupt => false
  | _ => true
  end.

Definition is_configparser_error (e : exn) : bool :=
  match e with
  | NoSectionError | NoOptionError | ParsingError => true
  | _ => false
  end.

(** A Python computation: returns a value or raises. *)
Inductive res (A : Type) : Type :=
| Ok (a : A)
| Exc (e : exn).
Arguments Ok {A} a.
Arguments Exc {A} e.

Definition bind {A B} (r : res A) (k : A -> res B) : res B :=
  match r with
  | Ok a => k a
  | Exc e => Exc e
  end.

Notation "'let*' x := r 'in' k" := (bind r (fun x => k))
  (at level 200, x name, r at level 100, k at level 200).

(** ** String helpers: [str.lower], [str.upper], [str.split], [str.endswith] *)

Definition ascii_lower (c : ascii) : ascii :=
  let n := nat_of_ascii c in
  if (65 <=? n)%nat && (n <=? 90)%nat then ascii_of_nat (n + 32) else c.

Definition ascii_upper (c : ascii) : ascii :=
  let n := nat_of_ascii c in
  if (97 <=? n)%nat && (n <=? 122)%nat then ascii_of_nat (n - 32) else c.

Fixpoint str_map (f : ascii -> ascii) (s : string) : string :=
  match s with
  | EmptyString => EmptyString
  | String c s' => String (f c) (str_map f s')
  end.

Definition lower (s : string) : string := str_map ascii_lower s.

(** Strings of 7-bit ASCII characters, on which [lower] and [upper] agree
    with Python's Unicode case mappings. *)
Fixpoint is_ascii7 (s : string) : bool :=
  match s with
  | EmptyString => true
  | String c s' => (nat_of_ascii c <? 128)%nat && is_ascii7 s'
  end.
Definition upper (s : string) : string := str_map ascii_upper s.

(** [s.split(sep)] for a one-character separator: the pieces between the
    separators, empty pieces included ("a..b" gives ["a"; ""; "b"]). *)
Fixpoint split_on (sep : ascii) (s : string) : list string :=
  match s with
  | EmptyString => [EmptyString]
  | String c s' =>
      match split_on sep s' with
      | [] => [String c EmptyString]
      | p :: ps =>
          if Ascii.eqb c sep then EmptyString :: p :: ps
          else String c p :: ps
      end
  end.

Definition endswith (s suffix : string) : bool :=
  let n := String.length s in
  let m := String.length suffix in
  (m <=? n)%nat && String.eqb (substring (n - m) m s) suffix.

(** ** Descriptors *)

(** The [type_] / [config_value_type] fields: the classes the code
    distinguishes with [issubclass], and any other class. *)
Inductive pytype : Type := PyStr | PyBool | PyInt | PyList | PyOther.

(** The field [option] is written [option_] so that it does not hide the
    [option] type. *)
Record LegacyConfigEntry : Type := {
  section : string;
  option_ : string;
  type_ : pytype
}.

Record YamlConfigEntry : Type := {
  switch : string;
  config_value_type : pytype
}.

(** A transform: any Python callable taking the raw value. *)
Definition transform_fn := pyval -> res pyval.

(** The process environment, [os.environ.get]. *)
Definition environ := string -> option string.

(** ** [LegacyConfigEntry.read_from_env] *)

Definition env_var_name (le : LegacyConfigEntry) : string :=
  "FLYTE_" ++ upper (section le) ++ "_" ++ upper (option_ le).

Definition apply_transform (transform : option transform_fn) (v : pyval) : res pyval :=
  match transform with
  | Some f => f v
  | None => Ok v
  end.

Definition read_from_env (env : environ) (le : LegacyConfigEntry)
    (transform : option transform_fn) : res pyval :=
  match env (env_var_name le) with
  | None => Ok VNone
  | Some v => apply_transform transform (VStr v)
  end.

(** ** [bool_transformer] *)

Definition bool_transformer (config_val : pyval) : res pyval :=
  match config_val with
  | VStr s =>
      Ok (VBool (negb (String.eqb s "")
                 && negb (existsb (String.eqb (lower s)) ["false"; "0"; "off"; "no"])))
  | v => Ok v
  end.

(** ** [int(...)] on a string *)

Definition is_space (c : ascii) : bool :=
  existsb (Ascii.eqb c) [" "%char; "009"%char; "010"%char; "011"%char; "012"%char; "013"%char].

Fixpoint lstrip (s : string) : string :=
  match s with
  | String c s' => if is_space c then lstrip s' else s
  | EmptyString => EmptyString
  end.

Fixpoint str_rev (s : string) : string :=
  match s with
  | EmptyString => EmptyString
  | String c s' => str_rev s' ++ String c EmptyString
  end.

Definition strip (s : string) : string := str_rev (lstrip (str_rev (lstrip s))).

Definition digit_value (c : ascii) : option Z :=
  let n := nat_of_ascii c in
  if (48 <=? n)%nat && (n <=? 57)%nat then Some (Z.of_nat (n - 48)) else None.

(** Decimal digits, single underscores allowed between digits; [after_sep]
    is true at the start and right after an underscore. *)
Fixpoint parse_digits (s : string) (acc : Z) (after_sep : bool) : option Z :=
  match s with
  | EmptyString => if after_sep then None else Some acc
  | String c s' =>
      match digit_value c with
      | Some d => parse_digits s' (acc * 10 + d)%Z false
      | None =>
          if Ascii.eqb c "_"%char && negb after_sep
          then parse_digits s' acc true else None
      end
  end.

(** [int(s)] for a [str] argument in base 10, on ASCII input. *)
Definition py_int (s : string) : res Z :=
  let r :=
    match strip s with
    | String "-" t => option_map Z.opp (parse_digits t 0 true)
    | String "+" t => parse_digits t 0 true
    | t => parse_digits t 0 true
    end in
  match r with
  | Some z => Ok z
  | None => Exc ValueError
  end.

(** ** The parsed INI document, [configparser.ConfigParser] *)

(** A parsed INI file: the [DEFAULT] section and the named sections, with
    option names already passed through [optionxform] (lower-cased) and values
    already interpolated. *)
Record ini_doc : Type := {
  ini_defaults : list (string * string);
  ini_sections : list (string * list (string * string))
}.

Fixpoint assoc {A} (k : string) (l : list (string * A)) : option A :=
  match l with
  | [] => None
  | (k', v) :: l' => if String.eqb k k' then Some v else assoc k l'
  end.

Definition has_section (c : ini_doc) (sec : string) : bool :=
  match assoc sec (ini_sections c) with Some _ => true | None => false end.

(** [ConfigParser.get(section, option)]. *)
Definition cp_get (c : ini_doc) (sec opt : string) : res string :=
  let sectiondict :=
    match assoc sec (ini_sections c) with
    | Some d => Ok d
    | None => if String.eqb sec "DEFAULT" then Ok [] else Exc NoSectionError
    end in
  let* d := sectiondict in
  let o := lower opt in
  match assoc o d with
  | Some v => Ok v
  | None =>
      match assoc o (ini_defaults c) with
      | Some v => Ok v
      | None => Exc NoOptionError
      end
  end.

Definition BOOLEAN_STATES : list (string * bool) :=
  [("1", true); ("yes", true); ("true", true); ("on", true);
   ("0", false); ("no", false); ("false", false); ("off", false)].

(** [ConfigParser.getboolean] and [ConfigParser.getint]. *)
Definition getboolean (c : ini_doc) (sec opt : string) : res bool :=
  let* v := cp_get c sec opt in
  match assoc (lower v) BOOLEAN_STATES with
  | Some b => Ok b
  | None => Exc ValueError
  end.

Definition getint (c : ini_doc) (sec opt : string) : res Z :=
  let* v := cp_get c sec opt in py_int v.

(** ** [ConfigFile] *)

(** The [location] argument: a [str], or a [pathlib.Path] object (which has
    no [endswith] method). *)
Inductive loc_arg : Type := LStr (s : string) | LPath (p : string).

(** [cf_yaml] is [VNone] for Python's [None]. *)
Record ConfigFile : Type := {
  cf_location : loc_arg;
  legacy_config : option ini_doc;
  yaml_config : pyval
}.

Inductive descriptor : Type :=
| DLegacy (c : LegacyConfigEntry)
| DYaml (c : YamlConfigEntry)
| DOther.

(** [d[k]] with a [str] key. *)
Definition subscript (d : pyval) (k : string) : res pyval :=
  match d with
  | VDict m =>
      match assoc k m with
      | Some v => Ok v
      | None => Exc KeyError
      end
  | _ => Exc TypeError
  end.

(** [for k in keys: d = d[k]]. *)
Fixpoint walk (keys : list string) (d : pyval) : res pyval :=
  match keys with
  | [] => Ok d
  | k :: ks => let* d' := subscript d k in walk ks d'
  end.

Definition _get_from_yaml (cf : ConfigFile) (c : YamlConfigEntry) : res pyval :=
  match walk (split_on "." (switch c)) (yaml_config cf) with
  | Exc KeyError => Ok VNone
  | r => r
  end.

Definition _get_from_legacy (cf : ConfigFile) (c : LegacyConfigEntry) : res pyval :=
  match legacy_config cf with
  | None => Exc AttributeError
  | Some lc =>
      match type_ c with
      | PyBool => let* b := getboolean lc (section c) (option_ c) in Ok (VBool b)
      | PyInt => let* z := getint lc (section c) (option_ c) in Ok (VInt z)
      | PyList =>
          let* v := cp_get lc (section c) (option_ c) in
          Ok (VList (map VStr (split_on "," v)))
      | _ => let* v := cp_get lc (section c) (option_ c) in Ok (VStr v)
      end
  end.

Definition get (cf : ConfigFile) (c : descriptor) : res pyval :=
  match c with
  | DLegacy le => _get_from_legacy cf le
  | DYaml ye => if truthy (yaml_config cf) then _get_from_yaml cf ye
                else Exc NotImplementedError
  | DOther => Exc NotImplementedError
  end.

(** ** [read_from_file] of both descriptors *)

(** [LegacyConfigEntry.read_from_file]: a [ConfigFile] instance is always
    truthy, so the [if not cfg] guard never fires; the [try] catches
    [configparser.Error] only. *)
Definition legacy_read_from_file (le : LegacyConfigEntry) (cfg : ConfigFile)
    (transform : option transform_fn) : res pyval :=
  match (let* v := get cfg (DLegacy le) in apply_transform transform v) with
  | Exc e => if is_configparser_error e then Ok VNone else Exc e
  | r => r
  end.

(** [YamlConfigEntry.read_from_file]: the [try] catches every [Exception]. *)
Definition yaml_read_from_file (ye : YamlConfigEntry) (cfg : ConfigFile)
    (transform : option transform_fn) : res pyval :=
  match get cfg (DYaml ye) with
  | Exc e => if is_exception e then Ok VNone else Exc e
  | Ok v =>
      if truthy v then
        match apply_transform transform v with
        | Ok r => Ok r
        | Exc e => if is_exception e then Ok VNone else Exc e
        end
      else Ok VNone
  end.

(** ** [ConfigEntry] *)

Record ConfigEntry : Type := {
  legacy : LegacyConfigEntry;
  yaml_entry : option YamlConfigEntry;
  transform : option transform_fn
}.

(** [legacy_default_transforms]: only [bool] has one. *)
Definition legacy_default_transforms (t : pytype) : option transform_fn :=
  match t with
  | PyBool => Some bool_transformer
  | _ => None
  end.

(** The dataclass constructor followed by [__post_init__] ([self.legacy], a
    dataclass instance, is always truthy). *)
Definition make_ConfigEntry (legacy : LegacyConfigEntry)
    (yaml_entry : option YamlConfigEntry) (transform : option transform_fn)
    : ConfigEntry :=
  let transform' :=
    match transform with
    | Some f => Some f
    | None => legacy_default_transforms (type_ legacy)
    end in
  {| legacy := legacy; yaml_entry := yaml_entry; transform := transform' |}.

(** [ConfigEntry.read]. [cfg.legacy_config] is a [ConfigParser], whose
    length counts the [DEFAULT] section, so it is truthy whenever present. *)
Definition read (env : environ) (ce : ConfigEntry) (cfg : option ConfigFile)
    : res pyval :=
  let* from_env := read_from_env env (legacy ce) (transform ce) in
  match from_env with
  | VNone =>
      match cfg with
      | Some cf =>
          match legacy_config cf with
          | Some _ => legacy_read_from_file (legacy ce) cf (transform ce)
          | None =>
              match yaml_entry ce with
              | Some ye =>
                  if truthy (yaml_config cf)
                  then yaml_read_from_file ye cf (transform ce)
                  else Ok VNone
              | None => Ok VNone
              end
          end
      | None => Ok VNone
      end
  | v => Ok v
  end.

(** ** Loading a [ConfigFile] and locating one *)

Section Loading.

(** The library and operating-system calls the loader makes:
    [open(location).read()], [yaml.safe_load], [ConfigParser.read] (missing
    files are skipped, syntax errors raise), [Path(p).exists()] (which
    raises the [OSError]s other than a missing entry, e.g. a name too long or
    a permission denied), [str(Path(p).absolute())] and [Path.home()] (which
    raises when no home directory can be determined). *)
Variable open_text : string -> res string.
Variable yaml_safe_load : string -> res pyval.
Variable configparser_read : string -> res ini_doc.
Variable path_exists : string -> res bool.
Variable path_absolute : string -> res string.
Variable path_home : res string.

Definition _read_yaml_config (location : string) : res pyval :=
  let* fh := open_text location in
  match yaml_safe_load fh with
  | Ok yaml_contents => Ok yaml_contents
  | Exc YAMLError => Ok VNone
  | Exc e => Exc e
  end.

Definition _read_legacy_config (location : string) : res ini_doc :=
  let* c := configparser_read location in
  if has_section c "internal" then Exc FlyteAssertion else Ok c.

(** [ConfigFile.__init__]. *)
Definition ConfigFile_init (location : loc_arg) : res ConfigFile :=
  match location with
  | LPath _ => Exc AttributeError
  | LStr s =>
      if endswith s "yaml" then
        let* y := _read_yaml_config s in
        Ok {| cf_location := location; legacy_config := None; yaml_config := y |}
      else
        let* c := _read_legacy_config s in
        Ok {| cf_location := location; legacy_config := Some c; yaml_config := VNone |}
  end.

Definition FLYTECTL_CONFIG_ENV_VAR : string := "FLYTECTL_CONFIG".

(** The argument of [get_config_file]. *)
Inductive hint : Type :=
| HNone
| HStr (s : string)
| HFile (cf : ConfigFile).

(** [get_config_file]. The first two candidates are handed to [ConfigFile] as
    [Path] objects ([.absolute()] without [str]), the last two as strings.
    [h ++ "/.flyte/config"] stands for [Path(h, ".flyte", "config")];
    [Path.home()] is called once for each home candidate. *)
Definition get_config_file (env : environ) (c : hint) : res (option ConfigFile) :=
  match c with
  | HNone =>
      let current_location_config := "flytekit.config" in
      let* b1 := path_exists current_location_config in
      if b1 then
        let* a := path_absolute current_location_config in
        let* cf := ConfigFile_init (LPath a) in
        Ok (Some cf)
      else
      let* h := path_home in
      let home_dir_config := h ++ "/.flyte/config" in
      let* b2 := path_exists home_dir_config in
      if b2 then
        let* a := path_absolute home_dir_config in
        let* cf := ConfigFile_init (LPath a) in
        Ok (Some cf)
      else
      let* from_env :=
        match env FLYTECTL_CONFIG_ENV_VAR with
        | Some p =>
            if negb (String.eqb p "") then
              let* b3 := path_exists p in Ok (if b3 then Some p else None)
            else Ok None
        | None => Ok None
        end in
      match from_env with
      | Some p =>
          let* a := path_absolute p in
          let* cf := ConfigFile_init (LStr a) in Ok (Some cf)
      | None =>
          let* h' := path_home in
          let home_dir_yaml_config := h' ++ "/.flyte/config.yaml" in
          let* b4 := path_exists home_dir_yaml_config in
          if b4 then
            let* a := path_absolute home_dir_yaml_config in
            let* cf := ConfigFile_init (LStr a) in
            Ok (Some cf)
          else Ok None
      end
  | HStr s => let* cf := ConfigFile_init (LStr s) in Ok (Some cf)
  | HFile cf => Ok (Some cf)
  end.

End Loading.

(** ** [set_if_exists] *)

(** [d[k] = v] on a [dict] with [str] keys: an existing key keeps its
    position and gets the new value, a new key goes to the end. *)
Fixpoint dict_setitem (d : list (string * pyval)) (k : string) (v : pyval)
    : list (string * pyval) :=
  match d with
  | [] => [(k, v)]
  | (k', v') :: d' =>
      if String.eqb k k' then (k', v) :: d' else (k', v') :: dict_setitem d' k v
  end.

Definition set_if_exists (d : list (string * pyval)) (k : string) (v : pyval)
    : list (string * pyval) :=
  if truthy v then dict_setitem d k v else d.

(** ** Sanity checks of the embedding on small inputs *)

Example split_switch : split_on "." "a.b.c" = ["a"; "b"; "c"].
Proof. reflexivity. Qed.

Example split_empty_piece : split_on "," "x,,y" = ["x"; ""; "y"].
Proof. reflexivity. Qed.

Example env_name_platform :
  env_var_name {| section := "platform"; option_ := "url"; type_ := PyStr |}
  = "FLYTE_PLATFORM_URL".
Proof. reflexivity. Qed.

Example py_int_examples :
  py_int " 42 " = Ok 42%Z /\ py_int "-1_000" = Ok (-1000)%Z
  /\ py_int "abc" = Exc ValueError /\ py_int "1__0" = Exc ValueError.
Proof. repeat split; reflexivity. Qed.

Example endswith_examples :
  endswith "config.yaml" "yaml" = true /\ endswith "config.yml" "yaml" = false
  /\ endswith "yam" "yaml" = false.
Proof. repeat split; reflexivity. Qed.

(** ** Shared lemmas *)

(** Once the environment yields anything but [None], [read] returns it. *)
Lemma read_when_env_not_none (env : environ) (ce : ConfigEntry)
    (cfg : option ConfigFile) :
  read_from_env env (legacy ce) (transform ce) <> Ok VNone ->
  read env ce cfg = read_from_env env (legacy ce) (transform ce).
Proof.
  intros H. unfold read.
  destruct (read_from_env env (legacy ce) (transform ce)) as [v|e]; simpl;
    [destruct v; congruence | reflexivity].
Qed.


(** ** Concrete configurations used by the counterexamples *)

Definition le_sdk_x : LegacyConfigEntry :=
  {| section := "sdk"; option_ := "x"; type_ := PyStr |}.

Definition ini_sdk_x : ini_doc :=
  {| ini_defaults := []; ini_sections := [("sdk", [("x", "from-file")])] |}.

Definition cf_sdk_x : ConfigFile :=
  {| cf_location := LStr "flytekit.config"; legacy_config := Some ini_sdk_x;
     yaml_config := VNone |}.

(** A transform that maps one sentinel string to [None] and keeps every
    other value. *)
Definition none_for (w : string) : transform_fn :=
  fun v => match v with
           | VStr s => if String.eqb s w then Ok VNone else Ok v
           | _ => Ok v
           end.

Definition env_with (k v : string) : environ :=
  fun k' => if String.eqb k' k then Some v else None.

(** The environment with variable [k] removed. *)
Definition env_unset (env : environ) (k : string) : environ :=
  fun k' => if String.eqb k' k then None else env k'.

(** When the environment yields [None] (after the transform), [read] does
    what it does with the variable unset: it goes on to the file. *)
Lemma read_when_env_none (env : environ) (ce : ConfigEntry)
    (cfg : option ConfigFile) :
  read_from_env env (legacy ce) (transform ce) = Ok VNone ->
  read env ce cfg = read (env_unset env (env_var_name (legacy ce))) ce cfg.
Proof.
  intros H.
  assert (Hu : read_from_env (env_unset env (env_var_name (legacy ce)))
                 (legacy ce) (transform ce) = Ok VNone)
    by (unfold read_from_env, env_unset; rewrite String.eqb_refl; reflexivity).
  unfold read. rewrite H, Hu. reflexivity.
Qed.

(** ** C1: the environment takes precedence *)

(** C1 (as stated, refuted): with a transform that maps the environment value
    to [None], [read] falls through to the file although the variable is set,
    and returns the file's value instead of the transformed environment value. *)
Lemma C1_env_precedence_counterexample :
  let ce := make_ConfigEntry le_sdk_x None (Some (none_for "none")) in
  let env := env_with "FLYTE_SDK_X" "none" in
  env (env_var_name le_sdk_x) = Some "none"
  /\ read_from_env env (legacy ce) (transform ce) = Ok VNone
  /\ read env ce (Some cf_sdk_x) = Ok (VStr "from-file").
Proof. repeat split; reflexivity. Qed.

(** C1 (amended): when the entry's environment variable is set and the
    transformed environment value is not [None], [read] returns exactly that
    value (or the transform's exception) for every optional [ConfigFile]: the
    file is not consulted. When the transform maps the value to [None],
    [read] does what it does with the variable unset, i.e. it falls through
    to the file. Without a transform, or with [bool_transformer], the
    transformed value is never [None]. *)
Theorem C1_env_precedence (env : environ) (ce : ConfigEntry)
    (cfg : option ConfigFile) (s : string) :
  env (env_var_name (legacy ce)) = Some s ->
  (apply_transform (transform ce) (VStr s) <> Ok VNone ->
   read env ce cfg = apply_transform (transform ce) (VStr s))
  /\ (apply_transform (transform ce) (VStr s) = Ok VNone ->
      read env ce cfg = read (env_unset env (env_var_name (legacy ce))) ce cfg)
  /\ (transform ce = None \/ transform ce = Some bool_transformer ->
      apply_transform (transform ce) (VStr s) <> Ok VNone).
Proof.
  intros Hs.
  assert (Hr : read_from_env env (legacy ce) (transform ce)
               = apply_transform (transform ce) (VStr s))
    by (unfold read_from_env; rewrite Hs; reflexivity).
  split; [|split].
  - intros Hnn. rewrite <- Hr in Hnn |- *.
    exact (read_when_env_not_none env ce cfg Hnn).
  - intros Hn. rewrite <- Hr in Hn. exact (read_when_env_none env ce cfg Hn).
  - intros [Ht | Ht]; rewrite Ht; simpl; discriminate.
Qed.

Lemma C1_env_precedence_witness :
  env_with "FLYTE_SDK_X" "v" (env_var_name le_sdk_x) = Some "v"
  /\ read (env_with "FLYTE_SDK_X" "v") (make_ConfigEntry le_sdk_x None None)
          (Some cf_sdk_x) = Ok (VStr "v").
Proof.
  split; [reflexivity|].
  destruct (C1_env_precedence (env_with "FLYTE_SDK_X" "v")
              (make_ConfigEntry le_sdk_x None None) (Some cf_sdk_x) "v" eq_refl)
    as [H1 [_ H3]].
  exact (H1 (H3 (or_introl eq_refl))).
Defined.

(** ** C10: an empty environment value *)




(** ** C2: what [LegacyConfigEntry.read_from_file] swallows *)

(** A failed [ConfigParser.get] raises [NoSectionError] or [NoOptionError]. *)
Lemma cp_get_error_is_configparser (c : ini_doc) (sec opt : string) (e : exn) :
  cp_get c sec opt = Exc e -> is_configparser_error e = true.
Proof.
  unfold cp_get.
  destruct (assoc sec (ini_sections c)) as [d|]; simpl.
  - destruct (assoc (lower opt) d); [discriminate|].
    destruct (assoc (lower opt) (ini_defaults c)); [discriminate|].
    intros H; inversion H; reflexivity.
  - destruct (String.eqb sec "DEFAULT"); simpl.
    + destruct (assoc (lower opt) (ini_defaults c)); [discriminate|].
      intros H; inversion H; reflexivity.
    + intros H; inversion H; reflexivity.
Qed.

(** [int(...)] only ever raises [ValueError]. *)
Lemma py_int_error (s : string) (e : exn) : py_int s = Exc e -> e = ValueError.
Proof.
  unfold py_int.
  destruct (match strip s with
            | String "-" t => option_map Z.opp (parse_digits t 0 true)
            | String "+" t => parse_digits t 0 true
            | t => parse_digits t 0 true
            end); intros H; inversion H; reflexivity.
Qed.

Definition le_sdk_workers : LegacyConfigEntry :=
  {| section := "sdk"; option_ := "workers"; type_ := PyInt |}.

Definition cf_sdk_workers_malformed : ConfigFile :=
  {| cf_location := LStr "flytekit.config";
     legacy_config :=
       Some {| ini_defaults := [];
               ini_sections := [("sdk", [("workers", "abc")])] |};
     yaml_config := VNone |}.

(** C2 (as stated, refuted): an int option whose value is "abc" makes
    [getint] raise [ValueError], which is no [configparser.Error], so
    [read_from_file] propagates it instead of returning [None]. *)
Lemma C2_malformed_value_counterexample :
  legacy_read_from_file le_sdk_workers cf_sdk_workers_malformed None
  = Exc ValueError
  /\ is_configparser_error ValueError = false.
Proof. split; reflexivity. Qed.

(** C2 (amended): [read_from_file] never lets a [configparser.Error] escape,
    and on a legacy-backed file a missing section or option gives [None].
    Any other failure propagates unchanged: the [ValueError] raised by
    [getint]/[getboolean] on a value that is no int or no boolean, an error
    raised by the transform, and any other non-configparser error of the
    lookup (such as the [AttributeError] of a YAML-backed file). *)
Theorem C2_read_from_file_swallows_configparser_errors
    (le : LegacyConfigEntry) (cfg : ConfigFile) (tr : option transform_fn) :
  (forall e, legacy_read_from_file le cfg tr = Exc e ->
             is_configparser_error e = false)
  /\ (forall lc e, legacy_config cfg = Some lc ->
                   cp_get lc (section le) (option_ le) = Exc e ->
                   legacy_read_from_file le cfg tr = Ok VNone)
  /\ (forall lc v, legacy_config cfg = Some lc ->
                   cp_get lc (section le) (option_ le) = Ok v ->
                   (type_ le = PyInt /\ (exists e, py_int v = Exc e))
                   \/ (type_ le = PyBool /\ assoc (lower v) BOOLEAN_STATES = None) ->
                   legacy_read_from_file le cfg tr = Exc ValueError)
  /\ (forall v f e, get cfg (DLegacy le) = Ok v -> tr = Some f -> f v = Exc e ->
                    is_configparser_error e = false ->
                    legacy_read_from_file le cfg tr = Exc e)
  /\ (forall e, get cfg (DLegacy le) = Exc e -> is_configparser_error e = false ->
                legacy_read_from_file le cfg tr = Exc e).
Proof.
  split; [|split; [|split; [|split]]].
  - intros e. unfold legacy_read_from_file.
    destruct (let* v := get cfg (DLegacy le) in apply_transform tr v)
      as [v|e'] eqn:Hr.
    + discriminate.
    + destruct (is_configparser_error e') eqn:He; [discriminate|].
      intros H; inversion H; subst; exact He.
  - intros lc e Hlc Hcp. unfold legacy_read_from_file, get, _get_from_legacy.
    rewrite Hlc.
    assert (He := cp_get_error_is_configparser _ _ _ _ Hcp).
    destruct (type_ le); unfold getboolean, getint; rewrite Hcp; simpl;
      rewrite He; reflexivity.
  - intros lc v Hlc Hv Hcase. unfold legacy_read_from_file, get, _get_from_legacy.
    rewrite Hlc.
    destruct Hcase as [[Ht [e He]] | [Ht Hb]]; rewrite Ht.
    + unfold getint. rewrite Hv. cbn [bind]. rewrite He.
      rewrite (py_int_error v e He). reflexivity.
    + unfold getboolean. rewrite Hv. cbn [bind]. rewrite Hb. reflexivity.
  - intros v f e Hg Ht Hf He. unfold legacy_read_from_file.
    rewrite Hg, Ht. cbn [bind apply_transform]. rewrite Hf, He. reflexivity.
  - intros e Hg He. unfold legacy_read_from_file.
    rewrite Hg. cbn [bind]. rewrite He. reflexivity.
Qed.

Lemma C2_read_from_file_swallows_configparser_errors_witness :
  legacy_read_from_file le_sdk_workers cf_sdk_workers_malformed None
  = Exc ValueError.
Proof.
  destruct (C2_read_from_file_swallows_configparser_errors le_sdk_workers
              cf_sdk_workers_malformed None) as [_ [_ [H3 _]]].
  apply (H3 {| ini_defaults := [];
               ini_sections := [("sdk", [("workers", "abc")])] |} "abc");
    [reflexivity | reflexivity |].
  left. split; [reflexivity|]. exists ValueError. reflexivity.
Defined.

(** ** Loaders used by the concrete file examples *)

Definition open_any : string -> res string := fun _ => Ok "contents".

Definition yaml_broken : string -> res pyval := fun _ => Exc YAMLError.

Definition yaml_doc (d : pyval) : string -> res pyval := fun _ => Ok d.

Definition ini_empty : ini_doc := {| ini_defaults := []; ini_sections := [] |}.

Definition ini_with_internal : ini_doc :=
  {| ini_defaults := [];
     ini_sections := [("platform", [("url", "localhost:30081")]);
                      ("internal", [("x", "1")])] |}.

Definition cp_doc (d : ini_doc) : string -> res ini_doc := fun _ => Ok d.

(** ** C3: which document a [ConfigFile] holds *)

(** C3 (as stated, refuted): a ".yaml" file whose content [yaml.safe_load]
    rejects yields a [ConfigFile] with neither document. *)
Lemma C3_malformed_yaml_counterexample :
  exists cf,
    ConfigFile_init open_any yaml_broken (cp_doc ini_empty) (LStr "config.yaml")
    = Ok cf
    /\ legacy_config cf = None /\ yaml_config cf = VNone.
Proof. eexists. repeat split; reflexivity. Qed.

(** C3 (amended): a [ConfigFile] built from a string location never holds a
    legacy document when the location ends in "yaml" (its YAML document is
    what [yaml.safe_load] returned, [None] on a YAML error), and otherwise
    holds the legacy document and no YAML document. *)
Theorem C3_document_by_suffix
    (open_text : string -> res string) (yaml_safe_load : string -> res pyval)
    (configparser_read : string -> res ini_doc) (loc : string) (cf : ConfigFile) :
  ConfigFile_init open_text yaml_safe_load configparser_read (LStr loc) = Ok cf ->
  (endswith loc "yaml" = true /\ legacy_config cf = None
   /\ exists fh, open_text loc = Ok fh
      /\ (yaml_safe_load fh = Ok (yaml_config cf)
          \/ (yaml_safe_load fh = Exc YAMLError /\ yaml_config cf = VNone)))
  \/ (endswith loc "yaml" = false /\ legacy_config cf <> None
      /\ yaml_config cf = VNone).
Proof.
  unfold ConfigFile_init. destruct (endswith loc "yaml") eqn:Hy.
  - unfold _read_yaml_config. destruct (open_text loc) as [fh|e] eqn:Ho;
      simpl; [|discriminate].
    destruct (yaml_safe_load fh) as [v|e] eqn:Hl; simpl.
    + intros H; inversion H; subst; clear H. left. simpl.
      repeat split; auto. exists fh. split; [reflexivity|left; exact Hl].
    + destruct e; simpl; try discriminate.
      intros H; inversion H; subst; clear H. left. simpl.
      repeat split; auto. exists fh. split; [reflexivity|right; auto].
  - unfold _read_legacy_config. destruct (configparser_read loc) as [c|e];
      simpl; [|discriminate].
    destruct (has_section c "internal"); simpl; [discriminate|].
    intros H; inversion H; subst; clear H. right. simpl.
    repeat split; [discriminate].
Qed.

Lemma C3_document_by_suffix_witness :
  exists cf,
    ConfigFile_init open_any (yaml_doc (VDict [("admin", VDict [])]))
      (cp_doc ini_empty) (LStr "config.yaml") = Ok cf
    /\ endswith "config.yaml" "yaml" = true /\ legacy_config cf = None.
Proof.
  eexists. split; [reflexivity|].
  destruct (C3_document_by_suffix open_any (yaml_doc (VDict [("admin", VDict [])]))
              (cp_doc ini_empty) "config.yaml" _ eq_refl)
    as [[Hy [Hl _]] | [Hy _]].
  - split; [exact Hy | exact Hl].
  - discriminate Hy.
Defined.

(** ** C4: the reserved [internal] section *)

(** C4: an INI location whose parsed content has a section "internal" fails
    to load with [FlyteAssertion]; one without it loads. *)
Theorem C4_internal_section_rejected
    (open_text : string -> res string) (yaml_safe_load : string -> res pyval)
    (configparser_read : string -> res ini_doc) (loc : string) (doc : ini_doc) :
  endswith loc "yaml" = false ->
  configparser_read loc = Ok doc ->
  (has_section doc "internal" = true ->
   ConfigFile_init open_text yaml_safe_load configparser_read (LStr loc)
   = Exc FlyteAssertion)
  /\ (has_section doc "internal" = false ->
      exists cf,
        ConfigFile_init open_text yaml_safe_load configparser_read (LStr loc)
        = Ok cf /\ legacy_config cf = Some doc).
Proof.
  intros Hy Hr. unfold ConfigFile_init, _read_legacy_config.
  rewrite Hy, Hr. simpl.
  split; intros Hi; rewrite Hi; simpl; [reflexivity|].
  eexists; split; reflexivity.
Qed.

Lemma C4_internal_section_rejected_witness :
  ConfigFile_init open_any yaml_broken (cp_doc ini_with_internal)
    (LStr "flytekit.config") = Exc FlyteAssertion.
Proof.
  apply (proj1 (C4_internal_section_rejected open_any yaml_broken
                  (cp_doc ini_with_internal) "flytekit.config" ini_with_internal
                  eq_refl eq_refl)).
  reflexivity.
Defined.

(** ** C9: a YAML descriptor against a legacy-backed file *)

(** C9: on a [ConfigFile] loaded from a location not ending in "yaml",
    [get] with any [YamlConfigEntry] raises [NotImplementedError]. *)
Theorem C9_yaml_descriptor_on_legacy_file
    (open_text : string -> res string) (yaml_safe_load : string -> res pyval)
    (configparser_read : string -> res ini_doc) (loc : string) (cf : ConfigFile)
    (ye : YamlConfigEntry) :
  endswith loc "yaml" = false ->
  ConfigFile_init open_text yaml_safe_load configparser_read (LStr loc) = Ok cf ->
  get cf (DYaml ye) = Exc NotImplementedError.
Proof.
  intros Hy. unfold ConfigFile_init. rewrite Hy.
  destruct (_read_legacy_config configparser_read loc); simpl; [|discriminate].
  intros H; inversion H; subst; clear H. reflexivity.
Qed.

Lemma C9_yaml_descriptor_on_legacy_file_witness :
  exists cf,
    ConfigFile_init open_any yaml_broken (cp_doc ini_sdk_x) (LStr "flytekit.config")
    = Ok cf
    /\ get cf (DYaml {| switch := "admin.endpoint"; config_value_type := PyStr |})
       = Exc NotImplementedError.
Proof.
  eexists. split; [reflexivity|].
  apply (C9_yaml_descriptor_on_legacy_file open_any yaml_broken (cp_doc ini_sdk_x)
           "flytekit.config"); reflexivity.
Defined.

(** ** C5: the boolean coercion of environment values *)

Definition false_words : list string := ["false"; "0"; "off"; "no"].

(** C5: for a boolean entry built without an explicit transform,
    [read_from_env] maps every case variant of "false", "0", "off", "no" to
    [False] and every other non-empty string to [True]. *)
Theorem C5_bool_env_values (env : environ) (le : LegacyConfigEntry)
    (ye : option YamlConfigEntry) (s : string) :
  type_ le = PyBool ->
  env (env_var_name le) = Some s ->
  transform (make_ConfigEntry le ye None) = Some bool_transformer
  /\ (In (lower s) false_words ->
      read_from_env env le (transform (make_ConfigEntry le ye None))
      = Ok (VBool false))
  /\ (s <> "" -> ~ In (lower s) false_words ->
      read_from_env env le (transform (make_ConfigEntry le ye None))
      = Ok (VBool true)).
Proof.
  intros Hb Hs.
  assert (Ht : transform (make_ConfigEntry le ye None) = Some bool_transformer)
    by (simpl; rewrite Hb; reflexivity).
  split; [exact Ht|].
  rewrite Ht. unfold read_from_env. rewrite Hs.
  unfold apply_transform, bool_transformer. split.
  - intros Hin.
    replace (existsb (String.eqb (lower s)) ["false"; "0"; "off"; "no"])
      with true; [destruct (String.eqb s ""); reflexivity|].
    symmetry. apply existsb_exists. exists (lower s).
    split; [exact Hin | apply String.eqb_refl].
  - intros Hne Hnin.
    replace (String.eqb s "") with false
      by (symmetry; apply String.eqb_neq; exact Hne).
    replace (existsb (String.eqb (lower s)) ["false"; "0"; "off"; "no"])
      with false; [reflexivity|].
    symmetry. apply not_true_is_false. intros Hex.
    apply existsb_exists in Hex. destruct Hex as [w [Hw Heq]].
    apply String.eqb_eq in Heq. subst w. exact (Hnin Hw).
Qed.

Definition le_sdk_flag : LegacyConfigEntry :=
  {| section := "sdk"; option_ := "flag"; type_ := PyBool |}.

Lemma C5_bool_env_values_witness :
  read_from_env (env_with "FLYTE_SDK_FLAG" "OfF") le_sdk_flag
    (transform (make_ConfigEntry le_sdk_flag None None)) = Ok (VBool false).
Proof.
  apply (proj1 (proj2 (C5_bool_env_values (env_with "FLYTE_SDK_FLAG" "OfF")
                         le_sdk_flag None "OfF" eq_refl eq_refl))).
  simpl. right; right; left; reflexivity.
Defined.

(** ** C6: the environment variable an entry reads *)

(** C6: [read_from_env] reads exactly the variable
    FLYTE_{SECTION}_{OPTION}, upper-cased: it returns [None] when that
    variable is unset, the transform of its value when a transform is given,
    and the raw string otherwise; no other variable affects it. *)
Theorem C6_read_from_env_contract (env : environ) (le : LegacyConfigEntry)
    (tr : option transform_fn) :
  env_var_name le = "FLYTE_" ++ upper (section le) ++ "_" ++ upper (option_ le)
  /\ (env (env_var_name le) = None -> read_from_env env le tr = Ok VNone)
  /\ (forall v f, env (env_var_name le) = Some v -> tr = Some f ->
                  read_from_env env le tr = f (VStr v))
  /\ (forall v, env (env_var_name le) = Some v -> tr = None ->
                read_from_env env le tr = Ok (VStr v))
  /\ (forall env' : environ, env' (env_var_name le) = env (env_var_name le) ->
                             read_from_env env' le tr = read_from_env env le tr).
Proof.
  unfold read_from_env.
  repeat split.
  - intros H; rewrite H; reflexivity.
  - intros v f H Htr; rewrite H, Htr; reflexivity.
  - intros v H Htr; rewrite H, Htr; reflexivity.
  - intros env' H; rewrite H; reflexivity.
Qed.

(** ** C7: the dot-path walk of a YAML switch *)

Definition ye_abc : YamlConfigEntry :=
  {| switch := "a.b.c"; config_value_type := PyInt |}.

Definition yaml_abc42 : pyval :=
  VDict [("a", VDict [("b", VDict [("c", VInt 42)])])].

Definition yaml_ab_empty : pyval :=
  VDict [("a", VDict [("b", VDict [])])].

Definition yaml_file (d : pyval) : ConfigFile :=
  {| cf_location := LStr "config.yaml"; legacy_config := None; yaml_config := d |}.

Definition ce_abc : ConfigEntry :=
  make_ConfigEntry {| section := "a"; option_ := "b"; type_ := PyInt |}
    (Some ye_abc) None.

Definition env_empty : environ := fun _ => None.

(** Walking past a mapping that lacks the next key raises [KeyError],
    whatever keys follow. *)
Lemma walk_missing_key (pre post : list string) (k : string)
    (d : pyval) (m : list (string * pyval)) :
  walk pre d = Ok (VDict m) -> assoc k m = None ->
  walk ((pre ++ k :: post)%list) d = Exc KeyError.
Proof.
  revert d. induction pre as [|k0 pre IH]; intros d Hw Hk; simpl in *.
  - inversion Hw; subst. simpl. rewrite Hk. reflexivity.
  - destruct (subscript d k0) as [d'|e]; simpl in *; [|discriminate].
    exact (IH d' Hw Hk).
Qed.

(** C7: the switch "a.b.c" resolves to 42 in {a: {b: {c: 42}}} (through
    [_get_from_yaml], [YamlConfigEntry.read_from_file] and [ConfigEntry.read])
    and to [None], without an exception, in {a: {b: {}}}; in general a key
    missing anywhere along the dot path makes the walk return [None]. *)
Theorem C7_yaml_dot_path :
  _get_from_yaml (yaml_file yaml_abc42) ye_abc = Ok (VInt 42)
  /\ yaml_read_from_file ye_abc (yaml_file yaml_abc42) None = Ok (VInt 42)
  /\ read env_empty ce_abc (Some (yaml_file yaml_abc42)) = Ok (VInt 42)
  /\ _get_from_yaml (yaml_file yaml_ab_empty) ye_abc = Ok VNone
  /\ yaml_read_from_file ye_abc (yaml_file yaml_ab_empty) None = Ok VNone
  /\ read env_empty ce_abc (Some (yaml_file yaml_ab_empty)) = Ok VNone
  /\ (forall cf ye pre k post m,
        split_on "." (switch ye) = (pre ++ k :: post)%list ->
        walk pre (yaml_config cf) = Ok (VDict m) ->
        assoc k m = None ->
        _get_from_yaml cf ye = Ok VNone).
Proof.
  repeat split; try reflexivity.
  intros cf ye pre k post m Hs Hw Hk. unfold _get_from_yaml.
  rewrite Hs, (walk_missing_key pre post k _ m Hw Hk). reflexivity.
Qed.

(** ** C8: the locator with nothing to find *)

Fixpoint repeat_char (n : nat) (c : ascii) : string :=
  match n with
  | O => EmptyString
  | S n' => String c (repeat_char n' c)
  end.

(** A FLYTECTL_CONFIG value with a 300-character component: no file exists
    there, and [stat] fails with ENAMETOOLONG, which [Path.exists] re-raises
    as [OSError]. *)
Definition too_long_path : string := "/tmp/" ++ repeat_char 300 "a" ++ "/x.yaml".

(** [Path(p).exists()] on a machine where no candidate exists. *)
Definition exists_none_too_long : string -> res bool :=
  fun p => if String.eqb p too_long_path then Exc OSError else Ok false.

(** C8 (as stated, refuted): no candidate file exists, yet [get_config_file]
    raises: the existence check of the FLYTECTL_CONFIG path raises
    [OSError]. *)
Lemma C8_no_config_file_counterexample :
  get_config_file open_any yaml_broken (cp_doc ini_empty) exists_none_too_long
    (fun p => Ok ("/work/" ++ p)) (Ok "/home/user")
    (env_with "FLYTECTL_CONFIG" too_long_path) HNone = Exc OSError.
Proof. vm_compute. reflexivity. Qed.

(** C8 (amended): with no hint, when [Path.home()] succeeds and the existence
    check of every candidate (./flytekit.config, ~/.flyte/config, the
    non-empty FLYTECTL_CONFIG path, ~/.flyte/config.yaml) returns [False]
    without raising, [get_config_file] returns [None] without raising. *)
Theorem C8_no_config_file
    (open_text : string -> res string) (yaml_safe_load : string -> res pyval)
    (configparser_read : string -> res ini_doc)
    (path_exists : string -> res bool) (path_absolute : string -> res string)
    (path_home : res string) (home : string) (env : environ) :
  path_exists "flytekit.config" = Ok false ->
  path_home = Ok home ->
  path_exists (home ++ "/.flyte/config") = Ok false ->
  (forall p, env FLYTECTL_CONFIG_ENV_VAR = Some p -> p <> "" ->
             path_exists p = Ok false) ->
  path_exists (home ++ "/.flyte/config.yaml") = Ok false ->
  get_config_file open_text yaml_safe_load configparser_read path_exists
    path_absolute path_home env HNone = Ok None.
Proof.
  intros H1 Hh H2 H3 H4. unfold get_config_file.
  rewrite H1. simpl. rewrite Hh. simpl. rewrite H2. simpl.
  destruct (env FLYTECTL_CONFIG_ENV_VAR) as [p|] eqn:He; simpl.
  - destruct (String.eqb p "") eqn:Hp; simpl.
    + rewrite H4. reflexivity.
    + rewrite (H3 p eq_refl); [|apply String.eqb_neq; exact Hp].
      simpl. rewrite H4. reflexivity.
  - rewrite H4. reflexivity.
Qed.

Lemma C8_no_config_file_witness :
  get_config_file open_any yaml_broken (cp_doc ini_empty) (fun _ => Ok false)
    (fun p => Ok ("/work/" ++ p)) (Ok "/home/user")
    (env_with "FLYTECTL_CONFIG" "sandbox.yaml") HNone = Ok None.
Proof.
  apply (C8_no_config_file open_any yaml_broken (cp_doc ini_empty) (fun _ => Ok false)
           (fun p => Ok ("/work/" ++ p)) (Ok "/home/user") "/home/user");
    [reflexivity | reflexivity | reflexivity | | reflexivity].
  intros p _ _. reflexivity.
Defined.

(** ** Further properties of the code *)

(** [set_if_exists] stores a truthy value under its key and leaves the
    dictionary as it was for a falsy one ([None], "", [False], 0, empty
    containers); no other key changes. *)
Theorem set_if_exists_lookup (d : list (string * pyval)) (k k' : string)
    (v : pyval) :
  assoc k' (set_if_exists d k v) =
  if truthy v && String.eqb k' k then Some v else assoc k' d.
Proof.
  unfold set_if_exists. destruct (truthy v); simpl; [|reflexivity].
  induction d as [|[k0 v0] d IH]; simpl.
  - destruct (String.eqb k' k); reflexivity.
  - destruct (String.eqb k k0) eqn:Hk.
    + apply String.eqb_eq in Hk. subst k0. simpl.
      destruct (String.eqb k' k); reflexivity.
    + simpl. rewrite IH.
      destruct (String.eqb k' k0) eqn:Hk'; [|reflexivity].
      apply String.eqb_eq in Hk'. subst k0.
      destruct (String.eqb k' k) eqn:Hkk; [|reflexivity].
      apply String.eqb_eq in Hkk. subst k'. rewrite String.eqb_refl in Hk.
      discriminate.
Qed.

(** The keys after [d[k] = v]: unchanged if [k] was present, [k] appended
    otherwise. *)
Lemma dict_setitem_keys (d : list (string * pyval)) (k : string) (v : pyval) :
  map fst (dict_setitem d k v) =
  if existsb (String.eqb k) (map fst d) then map fst d else (map fst d ++ [k])%list.
Proof.
  induction d as [|[k0 v0] d IH]; simpl; [reflexivity|].
  destruct (String.eqb k k0) eqn:Hk; simpl; [reflexivity|].
  rewrite IH. destruct (existsb (String.eqb k) (map fst d)); reflexivity.
Qed.

(** [set_if_exists] keeps the keys of a dictionary distinct and in their
    order; a new key is added at the end. *)
Theorem set_if_exists_keys (d : list (string * pyval)) (k : string) (v : pyval) :
  NoDup (map fst d) ->
  NoDup (map fst (set_if_exists d k v))
  /\ map fst (set_if_exists d k v) =
     if truthy v && negb (existsb (String.eqb k) (map fst d))
     then (map fst d ++ [k])%list else map fst d.
Proof.
  intros Hnd. unfold set_if_exists.
  destruct (truthy v); simpl; [|split; [exact Hnd | reflexivity]].
  rewrite dict_setitem_keys.
  destruct (existsb (String.eqb k) (map fst d)) eqn:He; simpl;
    split; try reflexivity; try exact Hnd.
  apply NoDup_app; [exact Hnd | constructor; [intros [] | constructor] |].
  intros x Hx Hxk. destruct Hxk as [Hxk|[]]. subst x.
  assert (Ht : existsb (String.eqb k) (map fst d) = true)
    by (apply existsb_exists; exists k; split; [exact Hx | apply String.eqb_refl]).
  congruence.
Qed.

Lemma set_if_exists_keys_witness :
  map fst (set_if_exists [("project", VStr "p")] "domain" (VStr "d"))
  = ["project"; "domain"].
Proof.
  refine (eq_trans (proj2 (set_if_exists_keys [("project", VStr "p")] "domain"
                             (VStr "d") _)) eq_refl).
  constructor; [intros [] | constructor].
Defined.

(** With no hint, when ./flytekit.config exists, or else [Path.home()]
    succeeds and ~/.flyte/config exists (each check returning without
    raising, and [.absolute()] succeeding), [get_config_file] raises
    [AttributeError]: it passes a [Path] object to [ConfigFile], whose
    constructor calls [location.endswith]. *)
Theorem get_config_file_path_candidates_raise
    (open_text : string -> res string) (yaml_safe_load : string -> res pyval)
    (configparser_read : string -> res ini_doc)
    (path_exists : string -> res bool) (path_absolute : string -> res string)
    (path_home : res string) (home : string) (env : environ) :
  (path_exists "flytekit.config" = Ok true
   /\ exists a, path_absolute "flytekit.config" = Ok a)
  \/ (path_exists "flytekit.config" = Ok false /\ path_home = Ok home
      /\ path_exists (home ++ "/.flyte/config") = Ok true
      /\ exists a, path_absolute (home ++ "/.flyte/config") = Ok a) ->
  get_config_file open_text yaml_safe_load configparser_read path_exists
    path_absolute path_home env HNone = Exc AttributeError.
Proof.
  intros [[H1 [a Ha]] | [H1 [Hh [H2 [a Ha]]]]]; unfold get_config_file.
  - rewrite H1. simpl. rewrite Ha. reflexivity.
  - rewrite H1. simpl. rewrite Hh. simpl. rewrite H2. simpl. rewrite Ha.
    reflexivity.
Qed.

Lemma get_config_file_path_candidates_raise_witness :
  get_config_file open_any yaml_broken (cp_doc ini_sdk_x)
    (fun p => Ok (String.eqb p "/home/user/.flyte/config"))
    (fun p => Ok p) (Ok "/home/user") env_empty HNone = Exc AttributeError.
Proof.
  apply (get_config_file_path_candidates_raise open_any yaml_broken (cp_doc ini_sdk_x)
           (fun p => Ok (String.eqb p "/home/user/.flyte/config"))
           (fun p => Ok p) (Ok "/home/user") "/home/user").
  right. split; [reflexivity|]. split; [reflexivity|]. split; [reflexivity|].
  eexists. reflexivity.
Defined.

(** With no hint, when neither ./flytekit.config nor ~/.flyte/config exists
    (both checks and [Path.home()] returning without raising), an existing
    non-empty path named by FLYTECTL_CONFIG is loaded from its absolute path
    as a string; ~/.flyte/config.yaml is then not looked at. *)
Theorem get_config_file_env_candidate
    (open_text : string -> res string) (yaml_safe_load : string -> res pyval)
    (configparser_read : string -> res ini_doc)
    (path_exists : string -> res bool) (path_absolute : string -> res string)
    (path_home : res string) (home : string) (env : environ) (p : string) :
  path_exists "flytekit.config" = Ok false ->
  path_home = Ok home ->
  path_exists (home ++ "/.flyte/config") = Ok false ->
  env FLYTECTL_CONFIG_ENV_VAR = Some p -> p <> "" -> path_exists p = Ok true ->
  get_config_file open_text yaml_safe_load configparser_read path_exists
    path_absolute path_home env HNone
  = let* a := path_absolute p in
    let* cf := ConfigFile_init open_text yaml_safe_load configparser_read (LStr a) in
    Ok (Some cf).
Proof.
  intros H1 Hh H2 He Hp Hx. unfold get_config_file.
  rewrite H1. simpl. rewrite Hh. simpl. rewrite H2. simpl. rewrite He.
  replace (String.eqb p "") with false by (symmetry; apply String.eqb_neq; exact Hp).
  simpl. rewrite Hx. reflexivity.
Qed.

Lemma get_config_file_env_candidate_witness :
  get_config_file open_any (yaml_doc yaml_abc42) (cp_doc ini_empty)
    (fun q => Ok (String.eqb q "sandbox.yaml"
                  || String.eqb q "/home/user/.flyte/config.yaml"))
    (fun q => Ok ("/work/" ++ q)) (Ok "/home/user")
    (env_with "FLYTECTL_CONFIG" "sandbox.yaml") HNone
  = Ok (Some {| cf_location := LStr "/work/sandbox.yaml"; legacy_config := None;
                yaml_config := yaml_abc42 |}).
Proof.
  rewrite (get_config_file_env_candidate open_any (yaml_doc yaml_abc42)
             (cp_doc ini_empty)
             (fun q => Ok (String.eqb q "sandbox.yaml"
                           || String.eqb q "/home/user/.flyte/config.yaml"))
             (fun q => Ok ("/work/" ++ q)) (Ok "/home/user") "/home/user"
             (env_with "FLYTECTL_CONFIG" "sandbox.yaml") "sandbox.yaml");
    try reflexivity; discriminate.
Defined.

(** With no hint and no earlier candidate (every check, and [Path.home()],
    returning without raising), an existing ~/.flyte/config.yaml is loaded
    from its absolute path as a string. *)
Theorem get_config_file_home_yaml_candidate
    (open_text : string -> res string) (yaml_safe_load : string -> res pyval)
    (configparser_read : string -> res ini_doc)
    (path_exists : string -> res bool) (path_absolute : string -> res string)
    (path_home : res string) (home : string) (env : environ) :
  path_exists "flytekit.config" = Ok false ->
  path_home = Ok home ->
  path_exists (home ++ "/.flyte/config") = Ok false ->
  (forall p, env FLYTECTL_CONFIG_ENV_VAR = Some p -> p <> "" ->
             path_exists p = Ok false) ->
  path_exists (home ++ "/.flyte/config.yaml") = Ok true ->
  get_config_file open_text yaml_safe_load configparser_read path_exists
    path_absolute path_home env HNone
  = let* a := path_absolute (home ++ "/.flyte/config.yaml") in
    let* cf := ConfigFile_init open_text yaml_safe_load configparser_read (LStr a) in
    Ok (Some cf).
Proof.
  intros H1 Hh H2 H3 H4. unfold get_config_file.
  rewrite H1. simpl. rewrite Hh. simpl. rewrite H2. simpl.
  destruct (env FLYTECTL_CONFIG_ENV_VAR) as [p|] eqn:He; simpl.
  - destruct (String.eqb p "") eqn:Hp; simpl.
    + rewrite H4. reflexivity.
    + rewrite (H3 p eq_refl); [|apply String.eqb_neq; exact Hp].
      simpl. rewrite H4. reflexivity.
  - rewrite H4. reflexivity.
Qed.

Lemma get_config_file_home_yaml_candidate_witness :
  get_config_file open_any (yaml_doc yaml_abc42) (cp_doc ini_empty)
    (fun q => Ok (String.eqb q "/home/user/.flyte/config.yaml")) (fun q => Ok q)
    (Ok "/home/user") env_empty HNone
  = Ok (Some {| cf_location := LStr "/home/user/.flyte/config.yaml";
                legacy_config := None; yaml_config := yaml_abc42 |}).
Proof.
  rewrite (get_config_file_home_yaml_candidate open_any (yaml_doc yaml_abc42)
             (cp_doc ini_empty)
             (fun q => Ok (String.eqb q "/home/user/.flyte/config.yaml"))
             (fun q => Ok q) (Ok "/home/user") "/home/user" env_empty);
    try reflexivity.
  intros p Hp. discriminate Hp.
Defined.

(** [String.concat] over a non-empty head. *)
Lemma concat_cons_char (sep : string) (c : ascii) (p : string) (ps : list string) :
  String.concat sep (String c p :: ps) = String c (String.concat sep (p :: ps)).
Proof. destruct ps; reflexivity. Qed.

Lemma split_on_not_nil (sep : ascii) (s : string) : split_on sep s <> [].
Proof.
  destruct s as [|c s]; simpl; [discriminate|].
  destruct (split_on sep s) as [|p ps]; [discriminate|].
  destruct (Ascii.eqb c sep); discriminate.
Qed.

(** Joining the pieces of [s.split(sep)] with [sep] gives back [s]. *)
Lemma concat_split_on (sep : ascii) (s : string) :
  String.concat (String sep EmptyString) (split_on sep s) = s.
Proof.
  induction s as [|c s IH]; simpl; [reflexivity|].
  destruct (split_on sep s) as [|p ps] eqn:Hs;
    [exfalso; exact (split_on_not_nil sep s Hs)|].
  destruct (Ascii.eqb c sep) eqn:Hc.
  - apply Ascii.eqb_eq in Hc. subst c.
    change (String.concat (String sep EmptyString) (EmptyString :: p :: ps))
      with (String sep (String.concat (String sep EmptyString) (p :: ps))).
    rewrite IH. reflexivity.
  - rewrite concat_cons_char, IH. reflexivity.
Qed.

(** Reading an entry of the environment-unset, legacy-file branch. *)
Lemma read_legacy_branch (env : environ) (ce : ConfigEntry) (cf : ConfigFile)
    (lc : ini_doc) :
  env (env_var_name (legacy ce)) = None ->
  legacy_config cf = Some lc ->
  read env ce (Some cf) = legacy_read_from_file (legacy ce) cf (transform ce).
Proof.
  intros He Hl. unfold read, read_from_env. rewrite He. simpl. rewrite Hl.
  reflexivity.
Qed.

(** A boolean entry (built without an explicit transform) with its
    environment variable unset reads an INI value with [getboolean]: any case
    of 1/yes/true/on gives [True], of 0/no/false/off gives [False], and any
    other value raises [ValueError]; the default [bool_transformer] leaves
    the parsed boolean unchanged. *)
Theorem read_bool_from_legacy_file (env : environ) (le : LegacyConfigEntry)
    (ye : option YamlConfigEntry) (cf : ConfigFile) (lc : ini_doc) (v : string) :
  type_ le = PyBool ->
  env (env_var_name le) = None ->
  legacy_config cf = Some lc ->
  cp_get lc (section le) (option_ le) = Ok v ->
  read env (make_ConfigEntry le ye None) (Some cf) =
  match assoc (lower v) BOOLEAN_STATES with
  | Some b => Ok (VBool b)
  | None => Exc ValueError
  end.
Proof.
  intros Hb He Hl Hv.
  rewrite (read_legacy_branch env (make_ConfigEntry le ye None) cf lc He Hl).
  unfold legacy_read_from_file, get, _get_from_legacy, getboolean.
  cbn [legacy transform make_ConfigEntry]. rewrite Hb, Hl, Hv. cbn [bind].
  destruct (assoc (lower v) BOOLEAN_STATES); reflexivity.
Qed.

Definition le_sdk_flag_file : ConfigFile :=
  {| cf_location := LStr "flytekit.config";
     legacy_config := Some {| ini_defaults := [];
                              ini_sections := [("sdk", [("flag", "Yes")])] |};
     yaml_config := VNone |}.

Lemma read_bool_from_legacy_file_witness :
  read env_empty (make_ConfigEntry le_sdk_flag None None) (Some le_sdk_flag_file)
  = Ok (VBool true).
Proof.
  rewrite (read_bool_from_legacy_file env_empty le_sdk_flag None le_sdk_flag_file
             {| ini_defaults := []; ini_sections := [("sdk", [("flag", "Yes")])] |}
             "Yes"); reflexivity.
Defined.

(** An int entry with its environment variable unset reads an INI value with
    [int(...)]: the integer it denotes, or [ValueError] escaping [read]. *)
Theorem read_int_from_legacy_file (env : environ) (le : LegacyConfigEntry)
    (ye : option YamlConfigEntry) (cf : ConfigFile) (lc : ini_doc) (v : string) :
  type_ le = PyInt ->
  env (env_var_name le) = None ->
  legacy_config cf = Some lc ->
  cp_get lc (section le) (option_ le) = Ok v ->
  read env (make_ConfigEntry le ye None) (Some cf) =
  match py_int v with
  | Ok z => Ok (VInt z)
  | Exc _ => Exc ValueError
  end.
Proof.
  intros Hi He Hl Hv.
  rewrite (read_legacy_branch env (make_ConfigEntry le ye None) cf lc He Hl).
  unfold legacy_read_from_file, get, _get_from_legacy, getint.
  cbn [legacy transform make_ConfigEntry]. rewrite Hi, Hl, Hv. cbn [bind].
  destruct (py_int v) as [z|e] eqn:Hp; [reflexivity|].
  rewrite (py_int_error v e Hp). reflexivity.
Qed.

Lemma read_int_from_legacy_file_witness :
  read env_empty (make_ConfigEntry le_sdk_workers None None)
    (Some cf_sdk_workers_malformed) = Exc ValueError.
Proof.
  rewrite (read_int_from_legacy_file env_empty le_sdk_workers None
             cf_sdk_workers_malformed
             {| ini_defaults := []; ini_sections := [("sdk", [("workers", "abc")])] |}
             "abc"); reflexivity.
Defined.

(** A list entry (no transform) with its environment variable unset reads
    the INI value split on ","; joining the pieces with "," gives the raw
    value back. *)
Theorem read_list_from_legacy_file (env : environ) (le : LegacyConfigEntry)
    (ye : option YamlConfigEntry) (cf : ConfigFile) (lc : ini_doc) (v : string) :
  type_ le = PyList ->
  env (env_var_name le) = None ->
  legacy_config cf = Some lc ->
  cp_get lc (section le) (option_ le) = Ok v ->
  exists pieces,
    read env (make_ConfigEntry le ye None) (Some cf) = Ok (VList (map VStr pieces))
    /\ pieces = split_on "," v
    /\ String.concat "," pieces = v.
Proof.
  intros Hty He Hl Hv. exists (split_on "," v).
  rewrite (read_legacy_branch env (make_ConfigEntry le ye None) cf lc He Hl).
  unfold legacy_read_from_file, get, _get_from_legacy.
  cbn [legacy transform make_ConfigEntry]. rewrite Hty, Hl, Hv. cbn [bind].
  split; [reflexivity | split; [reflexivity | apply concat_split_on]].
Qed.

Definition le_sdk_tags : LegacyConfigEntry :=
  {| section := "sdk"; option_ := "tags"; type_ := PyList |}.

Definition ini_sdk_tags : ini_doc :=
  {| ini_defaults := []; ini_sections := [("sdk", [("tags", "x,y,z")])] |}.

Lemma read_list_from_legacy_file_witness :
  read env_empty (make_ConfigEntry le_sdk_tags None None)
    (Some {| cf_location := LStr "flytekit.config"; legacy_config := Some ini_sdk_tags;
             yaml_config := VNone |})
  = Ok (VList [VStr "x"; VStr "y"; VStr "z"]).
Proof.
  destruct (read_list_from_legacy_file env_empty le_sdk_tags None
              {| cf_location := LStr "flytekit.config";
                 legacy_config := Some ini_sdk_tags; yaml_config := VNone |}
              ini_sdk_tags "x,y,z" eq_refl eq_refl eq_refl eq_refl)
    as [pieces [Hr [Hp _]]].
  rewrite Hr, Hp. reflexivity.
Defined.

(** [LegacyConfigEntry.read_from_file] on a missing section or option. *)
Lemma legacy_read_missing_option (le : LegacyConfigEntry) (cf : ConfigFile)
    (tr : option transform_fn) (lc : ini_doc) (e : exn) :
  legacy_config cf = Some lc ->
  cp_get lc (section le) (option_ le) = Exc e ->
  legacy_read_from_file le cf tr = Ok VNone.
Proof.
  intros Hlc Hcp. unfold legacy_read_from_file, get, _get_from_legacy.
  rewrite Hlc.
  assert (He := cp_get_error_is_configparser _ _ _ _ Hcp).
  destruct (type_ le); unfold getboolean, getint; rewrite Hcp; simpl;
    rewrite He; reflexivity.
Qed.

(** With its environment variable unset, an entry whose section or option is
    missing from a legacy-backed file reads [None] without raising, whatever
    its transform; its YAML descriptor is never consulted for such a file. *)
Theorem read_missing_legacy_option (env : environ) (ce : ConfigEntry)
    (cf : ConfigFile) (lc : ini_doc) (e : exn) :
  env (env_var_name (legacy ce)) = None ->
  legacy_config cf = Some lc ->
  cp_get lc (section (legacy ce)) (option_ (legacy ce)) = Exc e ->
  read env ce (Some cf) = Ok VNone
  /\ (forall ye, read env {| legacy := legacy ce; yaml_entry := ye;
                             transform := transform ce |} (Some cf) = Ok VNone).
Proof.
  intros He Hl Hc.
  assert (Hf := legacy_read_missing_option (legacy ce) cf (transform ce) lc e Hl Hc).
  split.
  - rewrite (read_legacy_branch env ce cf lc He Hl). exact Hf.
  - intros ye.
    rewrite (read_legacy_branch env {| legacy := legacy ce; yaml_entry := ye;
                                       transform := transform ce |} cf lc He Hl).
    exact Hf.
Qed.

Lemma read_missing_legacy_option_witness :
  read env_empty (make_ConfigEntry le_sdk_flag (Some ye_abc) None) (Some cf_sdk_x)
  = Ok VNone.
Proof.
  exact (proj1 (read_missing_legacy_option env_empty
                  (make_ConfigEntry le_sdk_flag (Some ye_abc) None) cf_sdk_x ini_sdk_x
                  NoOptionError eq_refl eq_refl eq_refl)).
Defined.





(** Walking into a value that is not a mapping raises [TypeError]. *)
Lemma walk_through_scalar (pre post : list string) (k : string) (d x : pyval) :
  walk pre d = Ok x -> (forall m, x <> VDict m) ->
  walk ((pre ++ k :: post)%list) d = Exc TypeError.
Proof.
  revert d. induction pre as [|k0 pre IH]; intros d Hw Hx; simpl in *.
  - inversion Hw; subst. destruct x; try reflexivity. exfalso; exact (Hx m eq_refl).
  - destruct (subscript d k0) as [d'|e]; simpl in *; [|discriminate].
    exact (IH d' Hw Hx).
Qed.

(** When the switch path runs into a scalar, list or [None] before its last
    key, [_get_from_yaml] lets the [TypeError] through (it only catches
    [KeyError]), and [YamlConfigEntry.read_from_file] turns it into [None]. *)
Theorem yaml_path_through_scalar (ye : YamlConfigEntry) (cf : ConfigFile)
    (tr : option transform_fn) (pre post : list string) (k : string) (x : pyval) :
  split_on "." (switch ye) = (pre ++ k :: post)%list ->
  walk pre (yaml_config cf) = Ok x ->
  (forall m, x <> VDict m) ->
  _get_from_yaml cf ye = Exc TypeError
  /\ yaml_read_from_file ye cf tr = Ok VNone.
Proof.
  intros Hs Hw Hx.
  assert (Hg : _get_from_yaml cf ye = Exc TypeError)
    by (unfold _get_from_yaml; rewrite Hs, (walk_through_scalar pre post k _ x Hw Hx);
        reflexivity).
  split; [exact Hg|].
  unfold yaml_read_from_file, get.
  destruct (truthy (yaml_config cf)); [rewrite Hg|]; reflexivity.
Qed.

Definition ye_a_b : YamlConfigEntry :=
  {| switch := "a.b"; config_value_type := PyStr |}.

Lemma yaml_path_through_scalar_witness :
  _get_from_yaml (yaml_file (VDict [("a", VInt 5)])) ye_a_b = Exc TypeError.
Proof.
  apply (proj1 (yaml_path_through_scalar ye_a_b (yaml_file (VDict [("a", VInt 5)]))
                  None ["a"] [] "b" (VInt 5) eq_refl eq_refl
                  (fun m H => ltac:(discriminate H)))).
Defined.

Lemma ascii_upper_lower (c : ascii) : ascii_upper (ascii_lower c) = ascii_upper c.
Proof.
  destruct c as [b0 b1 b2 b3 b4 b5 b6 b7].
  destruct b0, b1, b2, b3, b4, b5, b6, b7; reflexivity.
Qed.

Lemma upper_lower (s : string) : upper (lower s) = upper s.
Proof.
  induction s as [|c s IH]; simpl; [reflexivity|].
  unfold upper, lower in *. simpl. rewrite ascii_upper_lower, IH. reflexivity.
Qed.

(** Entries whose 7-bit ASCII section and option names differ only in letter
    case read the same environment variable, hence the same value (on such
    names Python's [str.lower] and [str.upper] are the ASCII mappings). *)
Theorem read_from_env_case_insensitive (env : environ) (le1 le2 : LegacyConfigEntry)
    (tr : option transform_fn) :
  is_ascii7 (section le1) = true -> is_ascii7 (section le2) = true ->
  is_ascii7 (option_ le1) = true -> is_ascii7 (option_ le2) = true ->
  lower (section le1) = lower (section le2) ->
  lower (option_ le1) = lower (option_ le2) ->
  env_var_name le1 = env_var_name le2
  /\ read_from_env env le1 tr = read_from_env env le2 tr.
Proof.
  intros _ _ _ _ Hs Ho.
  assert (Hn : env_var_name le1 = env_var_name le2).
  { unfold env_var_name.
    rewrite <- (upper_lower (section le1)), <- (upper_lower (section le2)),
            <- (upper_lower (option_ le1)), <- (upper_lower (option_ le2)),
            Hs, Ho.
    reflexivity. }
  split; [exact Hn|]. unfold read_from_env. rewrite Hn. reflexivity.
Qed.

Lemma read_from_env_case_insensitive_witness :
  read_from_env (env_with "FLYTE_PLATFORM_URL" "localhost:30081")
    {| section := "Platform"; option_ := "URL"; type_ := PyStr |} None
  = read_from_env (env_with "FLYTE_PLATFORM_URL" "localhost:30081")
    {| section := "platform"; option_ := "url"; type_ := PyStr |} None.
Proof.
  exact (proj2 (read_from_env_case_insensitive
                  (env_with "FLYTE_PLATFORM_URL" "localhost:30081")
                  {| section := "Platform"; option_ := "URL"; type_ := PyStr |}
                  {| section := "platform"; option_ := "url"; type_ := PyStr |}
                  None eq_refl eq_refl eq_refl eq_refl eq_refl eq_refl)).
Defined.
